(** * jsDAV CalDAV calendar-query validator

    A shallow embedding of [lib/CalDAV/calendarQueryValidator.js] and the
    properties of its filter evaluation.

    The validator walks two read-only trees: the parsed filter and the
    calendar object.  JavaScript features the code relies on are kept
    explicit: values that are only consumed through their truthiness
    (the bitwise [^] on booleans yields a number), thrown values, calls
    of a constructor without [new], absent ([undefined]/[null])
    references and array reads past the end. *)

From Stdlib Require Import ZArith List String Bool Lia.
Import ListNotations.

Local Open Scope string_scope.
Local Open Scope list_scope.
Local Open Scope Z_scope.
Set Warnings "-register-all".

(** ** JavaScript values and exceptions *)

(** The two kinds of value a validator hands back: a Boolean, or the
    number produced by [a ^ b]. *)
Inductive value : Type :=
| Bool (b : bool)
| Num (n : Z).

(** ToBoolean, as applied by [if (...)] and by [!]. *)
Definition truthy (v : value) : bool :=
  match v with
  | Bool b => b
  | Num n => negb (n =? 0)
  end.

(** [a ^ b] on two Booleans: both operands go through ToInt32. *)
Definition bxor (a b : bool) : value :=
  Num (Z.lxor (Z.b2z a) (Z.b2z b)).

(** What a [throw] can carry: the NotImplemented and BadRequest errors
    of the exceptions module, the engine's own [TypeError] for a property
    read on [undefined] or [null], and the value [undefined] itself. *)
Inductive exc : Type :=
| NotImplemented (message : string)
| BadRequest (message : string)
| TypeError
| Undefined.

(** Modelled from the spec: the exceptions module (lib/shared/exceptions)
    is missing.  [Exc.NotImplemented] and [Exc.BadRequest] are the
    constructors of the two errors; a constructor fills in [this] and
    returns nothing, so a call without [new], as the validator writes it,
    evaluates to [undefined]. *)
Definition Exc_NotImplemented (message : string) : exc := Undefined.
Definition Exc_BadRequest (message : string) : exc := Undefined.

Inductive outcome (A : Type) : Type :=
| Ret (a : A)
| Throw (e : exc).

Arguments Ret {A} a.
Arguments Throw {A} e.

Definition bind {A B} (m : outcome A) (k : A -> outcome B) : outcome B :=
  match m with
  | Ret a => k a
  | Throw e => Throw e
  end.

Notation "x <- m ;; k" := (bind m (fun x => k))
  (at level 61, m at next level, right associativity).

(** [a && b] where both sides are calls returning Booleans: the right
    operand is only evaluated when the left one is true. *)
Definition and_then (a b : outcome bool) : outcome bool :=
  x <- a ;; if x then b else Ret false.

(** ** The calendar object *)

(** Modelled from the spec: the calendar object model (lib/VObject) is
    missing.  A node has a name, an ordered sequence of named children
    (sub-components and properties of a component, parameters of a
    property), a scalar value and, for date properties, a date-time.
    Dates are instants: milliseconds since the epoch, which is what
    [<=] and [>=] compare on two [Date] objects. *)
Inductive Node : Type := mkNode {
  name : string;
  children : list Node;
  value_ : string;
  dateTime : Z
}.

(** Modelled from the spec: [children()], missing with the object model. *)
Definition getChildren (n : Node) : list Node := children n.

(** Modelled from the spec: [selectNamedChildren(name)], missing with the
    object model: the children carrying that name, in order. *)
Definition select (n : Node) (nm : string) : list Node :=
  filter (fun c => String.eqb (name c) nm) (children n).

(** Modelled from the spec: [hasNamedChild(name)], missing with the object
    model: whether some child carries that name. *)
Definition isset (n : Node) (nm : string) : bool :=
  existsb (fun c => String.eqb (name c) nm) (children n).

(** Modelled from the spec: "extract scalar value", missing with the
    object model. *)
Definition getValue (n : Node) : string := value_ n.

(** Modelled from the spec: [dateTimeValue()], missing with the object
    model. *)
Definition getDateTime (n : Node) : Z := dateTime n.

(** The two delegates of the validator: recurrence-aware range
    containment of a component, and the text matcher
    [Util.textMatch(value, pattern, matchType)].  Each answers with a
    Boolean or throws. *)
Class Collaborators : Type := {
  isInTimeRange : Node -> Z -> Z -> outcome bool;
  Util_textMatch : string -> string -> string -> outcome bool
}.

(** ** The filter tree *)

Record TimeRange : Type := {
  start : option Z;
  end_ : option Z
}.

Record TextMatch : Type := {
  tm_value : string;
  match_type : string;
  negate_condition : bool
}.

Record ParamFilter : Type := {
  param_name : string;
  param_is_not_defined : bool;
  param_text_match : option TextMatch
}.

Record PropFilter : Type := {
  prop_name : string;
  prop_is_not_defined : bool;
  prop_time_range : option TimeRange;
  prop_text_match : option TextMatch;
  param_filters : list ParamFilter
}.

Inductive CompFilter : Type := mkCompFilter {
  comp_name : string;
  comp_is_not_defined : bool;
  comp_time_range : option TimeRange;
  comp_filters : list CompFilter;
  prop_filters : list PropFilter
}.

(** The root [filter] element: a name and the two filter sets. *)
Record Filter : Type := {
  root_name : string;
  root_comp_filters : list CompFilter;
  root_prop_filters : list PropFilter
}.

(** What the presence check reads off any filter node: [filter.name] and
    [filter['is-not-defined']]. *)
Class FilterNode (F : Type) : Type := {
  filter_name : F -> string;
  is_not_defined : F -> bool
}.

#[export] Instance CompFilter_node : FilterNode CompFilter :=
  {| filter_name := comp_name; is_not_defined := comp_is_not_defined |}.
#[export] Instance PropFilter_node : FilterNode PropFilter :=
  {| filter_name := prop_name; is_not_defined := prop_is_not_defined |}.
#[export] Instance ParamFilter_node : FilterNode ParamFilter :=
  {| filter_name := param_name; is_not_defined := param_is_not_defined |}.

(** ** The validator *)

(** [new Date(1900, 1, 1)] and [new Date(3000, 1, 1)]: the first of
    February (months count from zero), read in UTC. *)
Definition defaultStart : Z := -2206310400000.
Definition defaultEnd : Z := 32506358400000.

(** The object [_checkChildPresence] returns.  [presence_children] is
    [false] ([None]) when the name is absent, the selected array
    otherwise. *)
Record Presence : Type := {
  presence_children : option (list Node);
  stop : bool;
  result : value
}.

(** Indexing and [.length] on [false] behave as on an array without
    elements. *)
Definition elements (a : option (list Node)) : list Node :=
  match a with
  | Some l => l
  | None => []
  end.

Definition name_in (nm : string) (names : list string) : bool :=
  existsb (String.eqb nm) names.

Section Validator.

Context `{Collaborators}.

Definition _validateFilterSet {F : Type} (vObject : option Node)
    (filters : list F) (validator : option Node -> F -> outcome value)
  : outcome bool :=
  (fix loop (fs : list F) : outcome bool :=
     match fs with
     | [] => Ret true
     | filter :: rest =>
         v <- validator vObject filter ;;
         if negb (truthy v) then Ret false else loop rest
     end) filters.

Definition _anyChildMatches {F : Type} (children : list Node) (filter : F)
    (validator : Node -> F -> outcome value) : outcome bool :=
  (fix loop (cs : list Node) : outcome bool :=
     match cs with
     | [] => Ret false
     | child :: rest =>
         v <- validator child filter ;;
         if truthy v then Ret true else loop rest
     end) children.

Definition _allChildMatches {F : Type} (children : list Node)
    (validator : Node -> F -> outcome value) (filter : F) : outcome bool :=
  (fix loop (cs : list Node) : outcome bool :=
     match cs with
     | [] => Ret true
     | child :: rest =>
         v <- validator child filter ;;
         if negb (truthy v) then Ret false else loop rest
     end) children.

(** [vObject.isset] on [undefined] is a TypeError. *)
Definition _checkChildPresence {F : Type} `{FilterNode F}
    (vObject : option Node) (filter : F) : outcome Presence :=
  match vObject with
  | None => Throw TypeError
  | Some vObject =>
      let componentName := filter_name filter in
      let isChildPresent := isset vObject componentName in
      let negateChildPresence := is_not_defined filter in
      let children :=
        if isChildPresent then Some (select vObject componentName) else None in
      Ret {| presence_children := children;
             stop := negb (isChildPresent && negb negateChildPresence);
             result := bxor isChildPresent negateChildPresence |}
  end.

Definition mkCommonValidator {F : Type} `{FilterNode F}
    (continuator : list Node -> F -> outcome value)
  : option Node -> F -> outcome value :=
  fun component filter =>
    presence <- _checkChildPresence component filter ;;
    if stop presence then Ret (result presence)
    else continuator (elements (presence_children presence)) filter.

Definition _validateTimeRange (component : Node) (filter : option TimeRange)
  : outcome value :=
  match filter with
  | None => Ret (Bool true)
  | Some filter =>
      let start := match start filter with Some s => s | None => defaultStart end in
      let end_ := match end_ filter with Some e => e | None => defaultEnd end in
      if name_in (name component) ["VEVENT"; "VTODO"; "VJOURNAL"] then
        r <- isInTimeRange component start end_ ;; Ret (Bool r)
      else if String.eqb (name component) "VALARM" then
        Ret (Bool false)
      else if String.eqb (name component) "VFREEBUSY" then
        Throw (Exc_NotImplemented
                 ("time-range filters are currently not supported on "
                    ++ name component ++ " components")%string)
      else if name_in (name component)
                ["COMPLETED"; "CREATED"; "DTEND"; "DTSTAMP"; "DTSTART"; "DUE";
                 "LAST-MODIFIED"] then
        Ret (Bool ((start <=? getDateTime component)
                   && (end_ >=? getDateTime component)))
      else
        Throw (Exc_BadRequest
                 ("You cannot create a time-range filter on a "
                    ++ name component ++ " component")%string)
  end.

(** [component.getChildren()] on [undefined] is a TypeError. *)
Definition _validateTimeRangeOnComponent (component : option Node)
    (timeRangeFilter : option TimeRange) : outcome bool :=
  match timeRangeFilter with
  | Some _ =>
      match component with
      | None => Throw TypeError
      | Some component =>
          m <- _anyChildMatches (getChildren component) timeRangeFilter
                 _validateTimeRange ;;
          if negb m then Ret false else Ret true
      end
  | None => Ret true
  end.

(** [component.hasFeature] on [undefined], and [textMatch.value] on an
    absent text-match, are TypeErrors.  Every reference that reaches this
    function is a node, so it is always unwrapped to its value. *)
Definition _validateTextMatch (component : option Node)
    (textMatch : option TextMatch) : outcome value :=
  match component with
  | None => Throw TypeError
  | Some node =>
      let component := getValue node in
      match textMatch with
      | None => Throw TypeError
      | Some textMatch =>
          isMatching <-
            Util_textMatch component (tm_value textMatch) (match_type textMatch) ;;
          Ret (bxor (negate_condition textMatch) isMatching)
      end
  end.

Definition _validateParamFilter : option Node -> ParamFilter -> outcome value :=
  mkCommonValidator (fun children filter =>
    _validateTextMatch (nth_error children 0) (param_text_match filter)).

(** The function literal [_validatePropFilter] hands to
    [_anyChildMatches]. *)
Definition _validatePropFilter_child (child : Node) (filter : PropFilter)
  : outcome value :=
  t <- _validateTimeRange child (prop_time_range filter) ;;
  if negb (truthy t) then Ret (Bool false) else
  m <- _validateTextMatch (Some child) (prop_text_match filter) ;;
  if negb (truthy m) then Ret (Bool false) else
  s <- _validateFilterSet (Some child) (param_filters filter)
         _validateParamFilter ;;
  Ret (Bool s).

Definition _validatePropFilter : option Node -> PropFilter -> outcome value :=
  mkCommonValidator (fun children filter =>
    r <- _anyChildMatches children filter _validatePropFilter_child ;;
    Ret (Bool r)).

Fixpoint _validateCompFilter (component : option Node) (filter : CompFilter)
    {struct filter} : outcome value :=
  mkCommonValidator (fun children filter =>
    let node := nth_error children 0 in
    t <- _validateTimeRangeOnComponent (nth_error children 0)
           (comp_time_range filter) ;;
    if negb t then Ret (Bool false) else
    r <- and_then
           (_validateFilterSet node (comp_filters filter) _validateCompFilter)
           (_validateFilterSet node (prop_filters filter) _validatePropFilter) ;;
    Ret (Bool r)) component filter.

Definition validate (vObject : Node) (filter : option Filter) : outcome bool :=
  match filter with
  | Some filter =>
      if String.eqb (name vObject) (root_name filter) then
        and_then
          (_validateFilterSet (Some vObject) (root_comp_filters filter)
             _validateCompFilter)
          (_validateFilterSet (Some vObject) (root_prop_filters filter)
             _validatePropFilter)
      else Ret false
  | None => Ret true
  end.

End Validator.

(** ** Reading outcomes *)

(** The call returned, and [if (...)] takes the value as true. *)
Definition is_truthy (o : outcome value) : bool :=
  match o with
  | Ret v => truthy v
  | Throw _ => false
  end.

(** The call returned, and [if (!...)] takes the value as false. *)
Definition is_falsy (o : outcome value) : bool :=
  match o with
  | Ret v => negb (truthy v)
  | Throw _ => false
  end.

(** A parameter filter that dereferences no absent text-match: it is
    negated, or it carries a text-match. *)
Definition paramFilter_safe (pf : ParamFilter) : bool :=
  param_is_not_defined pf
  || match param_text_match pf with Some _ => true | None => false end.

(** A property filter that dereferences no absent text-match, in itself
    or in its parameter filters. *)
Definition propFilter_guarded (pf : PropFilter) : bool :=
  (prop_is_not_defined pf
   || match prop_text_match pf with Some _ => true | None => false end)
  && forallb paramFilter_safe (param_filters pf).

Definition no_range (r : option TimeRange) : bool :=
  match r with
  | None => true
  | Some _ => false
  end.

(** A check on every time-range and every property filter below a
    component filter, at any depth. *)
Fixpoint compFilter_all (qr : option TimeRange -> bool)
    (qp : PropFilter -> bool) (cf : CompFilter) {struct cf} : bool :=
  qr (comp_time_range cf)
  && forallb qp (prop_filters cf)
  && forallb (compFilter_all qr qp) (comp_filters cf).

Definition filter_all (qr : option TimeRange -> bool)
    (qp : PropFilter -> bool) (f : Filter) : bool :=
  forallb (compFilter_all qr qp) (root_comp_filters f)
  && forallb qp (root_prop_filters f).

(** Every property and parameter filter of the tree carries its
    text-match or is negated. *)
Definition text_guarded (f : Filter) : bool :=
  filter_all (fun _ => true) propFilter_guarded f.

(** No filter of the tree carries a time-range. *)
Definition without_time_range (f : Filter) : bool :=
  filter_all no_range (fun pf => no_range (prop_time_range pf)) f.

(** Whatever the call throws satisfies [P]. *)
Definition throws_only {A : Type} (P : exc -> Prop) (o : outcome A) : Prop :=
  match o with
  | Ret _ => True
  | Throw e => P e
  end.

(** No filter of the tree carries a time-range, and every property and
    parameter filter carries its text-match or is negated. *)
Definition plain_filter (f : Filter) : bool :=
  filter_all no_range
    (fun pf => no_range (prop_time_range pf) && propFilter_guarded pf) f.

(** The value is one that the text matcher, respectively the range
    delegate, throws on some input. *)
Definition matcher_throws `{Collaborators} (e : exc) : Prop :=
  exists v pattern type, Util_textMatch v pattern type = Throw e.
Definition range_delegate_throws `{Collaborators} (e : exc) : Prop :=
  exists n s t, isInTimeRange n s t = Throw e.

Definition notSupportedMessage (n : Node) : string :=
  ("time-range filters are currently not supported on "
     ++ name n ++ " components")%string.

Definition badRequestMessage (n : Node) : string :=
  ("You cannot create a time-range filter on a " ++ name n ++ " component")%string.

(** The names the [switch] of [_validateTimeRange] has a [case] for. *)
Definition componentNames : list string := ["VEVENT"; "VTODO"; "VJOURNAL"].
Definition dateNames : list string :=
  ["COMPLETED"; "CREATED"; "DTEND"; "DTSTAMP"; "DTSTART"; "DUE"; "LAST-MODIFIED"].
Definition supportedNames : list string :=
  componentNames ++ ["VALARM"; "VFREEBUSY"] ++ dateNames.

(** ** A small calendar to run the validator on *)

Module Sample.

Definition contains (pattern s : string) : bool :=
  match String.index 0 pattern s with
  | Some _ => true
  | None => false
  end.

(** A stand-in for the delegates: an event lies in a range when its
    DTSTART does, and reading the DTSTART of an event without one is a
    TypeError; text matching knows "equals" and "contains" and refuses
    any other match type. *)
Definition collaborators : Collaborators := {|
  isInTimeRange n s e :=
    match select n "DTSTART" with
    | [] => Throw TypeError
    | d :: _ => Ret ((s <=? dateTime d) && (dateTime d <=? e))
    end;
  Util_textMatch v pattern type :=
    if String.eqb type "equals" then Ret (String.eqb v pattern)
    else if String.eqb type "contains" then Ret (contains pattern v)
    else Throw (BadRequest "Unknown match type")
|}.

Definition prop (nm v : string) (params : list Node) : Node :=
  mkNode nm params v 0.
Definition date (nm : string) (t : Z) : Node := mkNode nm [] "" t.
Definition comp (nm : string) (cs : list Node) : Node := mkNode nm cs "" 0.

Definition jun15_2023 : Z := 1686787200000.
Definition jan1_2024 : Z := 1704067200000.
Definition jun15_2024 : Z := 1718409600000.
Definition dec31_2024 : Z := 1735603200000.
Definition jan1_2025 : Z := 1735689600000.

Definition year2024 : TimeRange :=
  {| start := Some jan1_2024; end_ := Some dec31_2024 |}.

Definition teamMeeting : Node := prop "SUMMARY" "Team Meeting" [].
Definition meeting : Node :=
  comp "VEVENT" [teamMeeting; date "DTSTART" jun15_2024].
Definition lunch : Node :=
  comp "VEVENT" [prop "SUMMARY" "Lunch" []; date "DTSTART" jun15_2024].

Definition summaryContains (s : string) : PropFilter :=
  {| prop_name := "SUMMARY"; prop_is_not_defined := false;
     prop_time_range := None;
     prop_text_match :=
       Some {| tm_value := s; match_type := "contains";
               negate_condition := false |};
     param_filters := [] |}.

Definition eventWith (pfs : list PropFilter) : Filter :=
  {| root_name := "VCALENDAR";
     root_comp_filters := [mkCompFilter "VEVENT" false None [] pfs];
     root_prop_filters := [] |}.

Definition busy : Node := comp "VFREEBUSY" [].
Definition busyCalendar : Node := comp "VCALENDAR" [busy].
Definition busyProp : PropFilter :=
  {| prop_name := "VFREEBUSY"; prop_is_not_defined := false;
     prop_time_range := Some year2024;
     prop_text_match := None; param_filters := [] |}.
Definition busyFilter : Filter :=
  {| root_name := "VCALENDAR"; root_comp_filters := [];
     root_prop_filters := [busyProp] |}.

Definition twoEvents : Node := comp "VCALENDAR" [meeting; lunch].
Definition anyEvent : CompFilter := mkCompFilter "VEVENT" false None [] [].
Definition eventsPresent : Presence :=
  {| presence_children := Some [meeting; lunch]; stop := false;
     result := Num 1 |}.

(** Two events, the first before 2024 and the second within it. *)
Definition early : Node := comp "VEVENT" [date "DTSTART" jun15_2023].
Definition planned : Node := comp "VEVENT" [date "DTSTART" jun15_2024].
Definition twoDates : Node := comp "VCALENDAR" [early; planned].
Definition eventIn2024 : CompFilter :=
  mkCompFilter "VEVENT" false (Some year2024) [] [].
Definition eventsIn2024 : Filter :=
  {| root_name := "VCALENDAR"; root_comp_filters := [eventIn2024];
     root_prop_filters := [] |}.

(** An event whose summary sits between an early DTSTART and a DTEND
    within 2024, and one that starts with a free-busy child. *)
Definition summarised : Node :=
  comp "VEVENT"
    [date "DTSTART" jun15_2023; teamMeeting; date "DTEND" jun15_2024].
Definition busyFirst : Node := comp "VEVENT" [busy; teamMeeting].

(** [<C:prop-filter name="SUMMARY"/>]: no time-range, no text-match, no
    parameter filters. *)
Definition hasSummary : PropFilter :=
  {| prop_name := "SUMMARY"; prop_is_not_defined := false;
     prop_time_range := None; prop_text_match := None;
     param_filters := [] |}.

(** A start with two TZID parameters, and a filter that asks for the
    second one. *)
Definition zoned : Node :=
  mkNode "DTSTART" [prop "TZID" "Europe/Paris" []; prop "TZID" "UTC" []]
    "20240615T090000" jun15_2024.
Definition tzidIsUTC : ParamFilter :=
  {| param_name := "TZID"; param_is_not_defined := false;
     param_text_match :=
       Some {| tm_value := "UTC"; match_type := "equals";
               negate_condition := false |} |}.

Definition eventAbout (s : string) : CompFilter :=
  mkCompFilter "VEVENT" false None [] [summaryContains s].

Definition from2024 : TimeRange :=
  {| start := Some jan1_2024; end_ := None |}.

(** A start in 2024 inside an event, and a filter that asks for a DTSTART
    in 2024 in the Paris zone without a text-match of its own. *)
Definition zonedEvent : Node := comp "VEVENT" [zoned].
Definition tzidIsParis : ParamFilter :=
  {| param_name := "TZID"; param_is_not_defined := false;
     param_text_match :=
       Some {| tm_value := "Europe/Paris"; match_type := "equals";
               negate_condition := false |} |}.
Definition startsIn2024 : PropFilter :=
  {| prop_name := "DTSTART"; prop_is_not_defined := false;
     prop_time_range := Some year2024; prop_text_match := None;
     param_filters := [tzidIsParis] |}.

(** A calendar whose event has no DTSTART, and a root property filter
    that puts a time-range and a text-match on the event. *)
Definition undated : Node := comp "VCALENDAR" [comp "VEVENT" []].
Definition eventAsProperty : Filter :=
  {| root_name := "VCALENDAR"; root_comp_filters := [];
     root_prop_filters :=
       [{| prop_name := "VEVENT"; prop_is_not_defined := false;
           prop_time_range := Some year2024;
           prop_text_match :=
             Some {| tm_value := ""; match_type := "contains";
                     negate_condition := false |};
           param_filters := [] |}] |}.

End Sample.

Section Properties.

Context `{Collaborators}.

(** ** The object model *)

Lemma select_name (p : Node) (nm : string) (c : Node) :
  In c (select p nm) -> name c = nm.
Proof.
  unfold select. intros Hin. apply filter_In in Hin.
  destruct Hin as [_ E]. now apply String.eqb_eq in E.
Qed.

Lemma isset_select (p : Node) (nm : string) :
  isset p nm = true -> exists c rest, select p nm = c :: rest.
Proof.
  unfold isset, select.
  induction (children p) as [|c cs IH]; simpl; [discriminate|].
  destruct (String.eqb (name c) nm); simpl; eauto.
Qed.

Lemma isset_false_select (p : Node) (nm : string) :
  isset p nm = false -> select p nm = [].
Proof.
  unfold isset, select.
  induction (children p) as [|c cs IH]; simpl; [reflexivity|].
  destruct (String.eqb (name c) nm); simpl; [discriminate|assumption].
Qed.

(** ** The two loops *)

Section Loops.

Context {F : Type}.

Lemma filterSet_cons (o : option Node) (f : F) (fs : list F)
    (v : option Node -> F -> outcome value) :
  _validateFilterSet o (f :: fs) v =
  (x <- v o f ;; if negb (truthy x) then Ret false else _validateFilterSet o fs v).
Proof. reflexivity. Qed.

Lemma filterSet_true_iff (o : option Node) (fs : list F)
    (v : option Node -> F -> outcome value) :
  _validateFilterSet o fs v = Ret true <->
  Forall (fun g => is_truthy (v o g) = true) fs.
Proof.
  induction fs as [|f fs IH].
  - split; [constructor|reflexivity].
  - rewrite filterSet_cons. split.
    + destruct (v o f) as [x|e] eqn:Ev; simpl; [|discriminate].
      destruct (truthy x) eqn:E; simpl; [|discriminate].
      intros Hrest. constructor; [rewrite Ev; exact E|]. now apply IH.
    + intros Hall. inversion Hall as [|? ? Hf Hfs]; subst.
      destruct (v o f) as [x|e]; simpl in *; [|discriminate].
      rewrite Hf. simpl. now apply IH.
Qed.

Lemma filterSet_throw (o : option Node) (pre : list F) (f : F) (post : list F)
    (v : option Node -> F -> outcome value) (e : exc) :
  Forall (fun g => is_truthy (v o g) = true) pre ->
  v o f = Throw e ->
  _validateFilterSet o (pre ++ f :: post) v = Throw e.
Proof.
  intros Hpre Hf. induction Hpre as [|g pre Hg _ IH]; simpl app.
  - rewrite filterSet_cons, Hf. reflexivity.
  - rewrite filterSet_cons.
    destruct (v o g) as [x|e']; simpl in *; [|discriminate].
    rewrite Hg. exact IH.
Qed.

Lemma anyChild_cons (c : Node) (cs : list Node) (f : F)
    (v : Node -> F -> outcome value) :
  _anyChildMatches (c :: cs) f v =
  (x <- v c f ;; if truthy x then Ret true else _anyChildMatches cs f v).
Proof. reflexivity. Qed.

Lemma anyChild_true_iff (cs : list Node) (f : F)
    (v : Node -> F -> outcome value) :
  _anyChildMatches cs f v = Ret true <->
  exists pre c post,
    cs = pre ++ c :: post /\
    Forall (fun p => is_falsy (v p f) = true) pre /\
    is_truthy (v c f) = true.
Proof.
  induction cs as [|a cs IH].
  - split; [discriminate|].
    intros (pre & c & post & E & _). now destruct pre.
  - rewrite anyChild_cons. split.
    + destruct (v a f) as [x|e] eqn:Ea; simpl; [|discriminate].
      destruct (truthy x) eqn:Ex.
      * intros _. exists [], a, cs. rewrite Ea. simpl. auto.
      * intros Hrest. apply IH in Hrest.
        destruct Hrest as (pre & c & post & -> & Hpre & Hc).
        exists (a :: pre), c, post. repeat split; [|exact Hc].
        constructor; [|exact Hpre]. rewrite Ea. simpl. now rewrite Ex.
    + intros (pre & c & post & E & Hpre & Hc).
      destruct pre as [|a' pre]; simpl in E; injection E as -> ->.
      * destruct (v c f) as [x|e]; simpl in *; [|discriminate].
        now rewrite Hc.
      * inversion Hpre as [|? ? Ha Hpre']; subst.
        destruct (v a' f) as [x|e]; simpl in *; [|discriminate].
        apply negb_true_iff in Ha. rewrite Ha.
        apply IH. exists pre, c, post. auto.
Qed.

Lemma anyChild_throw (pre : list Node) (c : Node) (post : list Node) (f : F)
    (v : Node -> F -> outcome value) (e : exc) :
  Forall (fun p => is_falsy (v p f) = true) pre ->
  v c f = Throw e ->
  _anyChildMatches (pre ++ c :: post) f v = Throw e.
Proof.
  intros Hpre Hc. induction Hpre as [|a pre Ha _ IH]; simpl app.
  - rewrite anyChild_cons, Hc. reflexivity.
  - rewrite anyChild_cons.
    destruct (v a f) as [x|e']; simpl in *; [|discriminate].
    apply negb_true_iff in Ha. rewrite Ha. exact IH.
Qed.

(** When no child makes the validator throw, the loop is [existsb]. *)
Lemma anyChild_existsb (cs : list Node) (f : F)
    (v : Node -> F -> outcome value) :
  (forall c, In c cs -> exists x, v c f = Ret x) ->
  _anyChildMatches cs f v = Ret (existsb (fun c => is_truthy (v c f)) cs).
Proof.
  induction cs as [|a cs IH]; intros Hret; [reflexivity|].
  rewrite anyChild_cons. destruct (Hret a (or_introl eq_refl)) as [x Ex].
  simpl existsb. rewrite Ex. simpl. destruct (truthy x); [reflexivity|].
  apply IH. intros c Hc. apply Hret. now right.
Qed.

End Loops.

(** ** The presence check *)

(** C3.  The presence check follows the table on (exists, isNotDefined):
    (false,false) stops with a false result, (false,true) stops with a
    true result, (true,false) does not stop and the validator continues
    into the matched children, (true,true) stops with a false result.
    The result is the number [exists ^ isNotDefined], read as a truth
    value by every caller. *)
Theorem presence_table {F : Type} `{FilterNode F}
    (continuator : list Node -> F -> outcome value)
    (parent : Node) (filter : F) :
  exists p,
    _checkChildPresence (Some parent) filter = Ret p /\
    match isset parent (filter_name filter), is_not_defined filter with
    | false, false =>
        stop p = true /\ truthy (result p) = false /\
        mkCommonValidator continuator (Some parent) filter = Ret (result p)
    | false, true =>
        stop p = true /\ truthy (result p) = true /\
        mkCommonValidator continuator (Some parent) filter = Ret (result p)
    | true, false =>
        stop p = false /\
        presence_children p = Some (select parent (filter_name filter)) /\
        mkCommonValidator continuator (Some parent) filter =
        continuator (select parent (filter_name filter)) filter
    | true, true =>
        stop p = true /\ truthy (result p) = false /\
        mkCommonValidator continuator (Some parent) filter = Ret (result p)
    end.
Proof.
  unfold mkCommonValidator, _checkChildPresence.
  eexists. split; [reflexivity|]. simpl.
  destruct (isset parent (filter_name filter)), (is_not_defined filter);
    simpl; auto.
Qed.

(** C9.  When the presence check does not stop, the matched children it
    hands over are a non-empty sequence, so [children[0]] in the
    component-filter and parameter-filter evaluators reads an element of
    the array. *)
Theorem continue_has_first_child {F : Type} `{FilterNode F}
    (parent : Node) (filter : F) (p : Presence) :
  _checkChildPresence (Some parent) filter = Ret p ->
  stop p = false ->
  exists first rest,
    presence_children p = Some (first :: rest) /\
    select parent (filter_name filter) = first :: rest /\
    nth_error (elements (presence_children p)) 0 = Some first.
Proof.
  unfold _checkChildPresence. intros E Hstop. injection E as <-.
  simpl in *.
  destruct (isset parent (filter_name filter)) eqn:Hset; [|discriminate].
  destruct (isset_select _ _ Hset) as (first & rest & Hsel).
  exists first, rest. rewrite Hsel. auto.
Qed.

(** The validator a continuing presence check leads to. *)
Lemma mkCommonValidator_continue {F : Type} `{FilterNode F}
    (continuator : list Node -> F -> outcome value)
    (parent : Node) (filter : F) :
  isset parent (filter_name filter) = true ->
  is_not_defined filter = false ->
  mkCommonValidator continuator (Some parent) filter =
  continuator (select parent (filter_name filter)) filter.
Proof.
  intros Hset Hnd. unfold mkCommonValidator, _checkChildPresence. simpl.
  now rewrite Hset, Hnd.
Qed.

Lemma mkCommonValidator_negated {F : Type} `{FilterNode F}
    (continuator : list Node -> F -> outcome value)
    (parent : Node) (filter : F) :
  is_not_defined filter = true ->
  mkCommonValidator continuator (Some parent) filter =
  Ret (bxor (isset parent (filter_name filter)) true).
Proof.
  intros Hnd. unfold mkCommonValidator, _checkChildPresence. simpl.
  rewrite Hnd. now rewrite andb_false_r.
Qed.

Lemma mkCommonValidator_absent {F : Type} `{FilterNode F}
    (continuator : list Node -> F -> outcome value)
    (parent : Node) (filter : F) :
  isset parent (filter_name filter) = false ->
  mkCommonValidator continuator (Some parent) filter =
  Ret (bxor false (is_not_defined filter)).
Proof.
  intros Hset. unfold mkCommonValidator, _checkChildPresence. simpl.
  now rewrite Hset.
Qed.

(** ** The time-range evaluator *)

(** C5.  On a COMPLETED, CREATED, DTEND, DTSTAMP, DTSTART, DUE or
    LAST-MODIFIED node and a time-range with both bounds, the evaluator
    returns true exactly when start <= date-time <= end, both ends
    included. *)
Theorem date_property_range_inclusive (c : Node) (s e : Z) :
  name_in (name c) dateNames = true ->
  let range := Some {| start := Some s; end_ := Some e |} in
  _validateTimeRange c range =
    Ret (Bool ((s <=? getDateTime c) && (getDateTime c <=? e))) /\
  (_validateTimeRange c range = Ret (Bool true) <->
   s <= getDateTime c <= e).
Proof.
  intros Hname range.
  assert (E : _validateTimeRange c range =
              Ret (Bool ((s <=? getDateTime c) && (getDateTime c <=? e)))).
  { unfold name_in, dateNames in Hname. simpl in Hname.
    unfold range, _validateTimeRange. rewrite Z.geb_leb.
    repeat (apply orb_true_iff in Hname;
            destruct Hname as [Hname|Hname];
            [apply String.eqb_eq in Hname; rewrite Hname; reflexivity|]).
    discriminate. }
  split; [exact E|]. rewrite E. split.
  - intros Hb. injection Hb as Hb. apply andb_true_iff in Hb. lia.
  - intros Hle. do 2 f_equal. apply andb_true_iff. lia.
Qed.

(** C8.  On a VALARM node and a present time-range, the evaluator returns
    false: no error, never true. *)
Theorem valarm_time_range_false (c : Node) (range : TimeRange) :
  name c = "VALARM" ->
  _validateTimeRange c (Some range) = Ret (Bool false).
Proof.
  intros Hname. unfold _validateTimeRange. rewrite Hname. reflexivity.
Qed.

Lemma timeRange_default_case (c : Node) (range : TimeRange) :
  name_in (name c) supportedNames = false ->
  _validateTimeRange c (Some range)
    = Throw (Exc_BadRequest (badRequestMessage c)).
Proof.
  intros Hname. unfold name_in, supportedNames, componentNames, dateNames in Hname.
  simpl in Hname. repeat (apply orb_false_iff in Hname; destruct Hname as [? Hname]).
  unfold _validateTimeRange, name_in. simpl existsb.
  repeat match goal with E : String.eqb _ _ = false |- _ => rewrite E; clear E end.
  reflexivity.
Qed.

(** C7.  On a node whose name the evaluator has no case for and a present
    time-range, the evaluator returns nothing: it throws.  What it throws
    is the value of [Exc.BadRequest(...)] called without [new], which is
    [undefined] and not the BadRequest error. *)
Theorem unsupported_name_throws_undefined (c : Node) (range : TimeRange) :
  name_in (name c) supportedNames = false ->
  _validateTimeRange c (Some range)
    = Throw (Exc_BadRequest (badRequestMessage c)) /\
  _validateTimeRange c (Some range) = Throw Undefined /\
  forall message,
    _validateTimeRange c (Some range) <> Throw (BadRequest message).
Proof.
  intros Hname. rewrite (timeRange_default_case c range Hname).
  split; [reflexivity|]. split; [reflexivity|].
  intros message. discriminate.
Qed.

(** ** How an exception travels *)

Lemma select_cons_isset (p : Node) (nm : string) (c : Node) (rest : list Node) :
  select p nm = c :: rest -> isset p nm = true.
Proof.
  intros Hsel. destruct (isset p nm) eqn:E; [reflexivity|].
  apply isset_false_select in E. congruence.
Qed.

Lemma timeRangeOnComponent_throw (n : Node) (range : TimeRange)
    (pre : list Node) (c : Node) (post : list Node) (e : exc) :
  getChildren n = pre ++ c :: post ->
  Forall (fun p => is_falsy (_validateTimeRange p (Some range)) = true) pre ->
  _validateTimeRange c (Some range) = Throw e ->
  _validateTimeRangeOnComponent (Some n) (Some range) = Throw e.
Proof.
  intros Hcs Hpre Hc. unfold _validateTimeRangeOnComponent.
  rewrite Hcs, (anyChild_throw pre c post (Some range) _ e Hpre Hc).
  reflexivity.
Qed.

Lemma compFilter_eq (o : option Node) (cf : CompFilter) :
  _validateCompFilter o cf =
  mkCommonValidator (fun children filter =>
    t <- _validateTimeRangeOnComponent (nth_error children 0)
           (comp_time_range filter) ;;
    if negb t then Ret (Bool false) else
    r <- and_then
           (_validateFilterSet (nth_error children 0) (comp_filters filter)
              _validateCompFilter)
           (_validateFilterSet (nth_error children 0) (prop_filters filter)
              _validatePropFilter) ;;
    Ret (Bool r)) o cf.
Proof. destruct cf; reflexivity. Qed.

Lemma compFilter_continue (parent : Node) (cf : CompFilter)
    (first : Node) (rest : list Node) :
  comp_is_not_defined cf = false ->
  select parent (comp_name cf) = first :: rest ->
  _validateCompFilter (Some parent) cf =
  (t <- _validateTimeRangeOnComponent (Some first) (comp_time_range cf) ;;
   if negb t then Ret (Bool false) else
   r <- and_then
          (_validateFilterSet (Some first) (comp_filters cf) _validateCompFilter)
          (_validateFilterSet (Some first) (prop_filters cf) _validatePropFilter) ;;
   Ret (Bool r)).
Proof.
  intros Hnd Hsel. rewrite compFilter_eq, mkCommonValidator_continue.
  - cbn [filter_name CompFilter_node]. rewrite Hsel. reflexivity.
  - exact (select_cons_isset _ _ _ _ Hsel).
  - exact Hnd.
Qed.

Lemma propFilter_continue (parent : Node) (pf : PropFilter)
    (first : Node) (rest : list Node) :
  prop_is_not_defined pf = false ->
  select parent (prop_name pf) = first :: rest ->
  _validatePropFilter (Some parent) pf =
  (r <- _anyChildMatches (first :: rest) pf _validatePropFilter_child ;;
   Ret (Bool r)).
Proof.
  intros Hnd Hsel. unfold _validatePropFilter.
  rewrite mkCommonValidator_continue.
  - cbn [filter_name PropFilter_node]. rewrite Hsel. reflexivity.
  - exact (select_cons_isset _ _ _ _ Hsel).
  - exact Hnd.
Qed.

(** No filter set turns an exception of one of its filters into a
    verdict, at the root or inside a component filter. *)
Lemma validate_comp_throw (obj : Node) (filter : Filter)
    (pre : list CompFilter) (cf : CompFilter) (post : list CompFilter) (e : exc) :
  name obj = root_name filter ->
  root_comp_filters filter = pre ++ cf :: post ->
  Forall (fun g => is_truthy (_validateCompFilter (Some obj) g) = true) pre ->
  _validateCompFilter (Some obj) cf = Throw e ->
  validate obj (Some filter) = Throw e.
Proof.
  intros Hname Hfs Hpre Hcf. unfold validate.
  rewrite Hname, String.eqb_refl, Hfs.
  rewrite (filterSet_throw _ pre cf post _ e Hpre Hcf). reflexivity.
Qed.

Lemma validate_prop_throw (obj : Node) (filter : Filter)
    (pre : list PropFilter) (pf : PropFilter) (post : list PropFilter) (e : exc) :
  name obj = root_name filter ->
  _validateFilterSet (Some obj) (root_comp_filters filter) _validateCompFilter
    = Ret true ->
  root_prop_filters filter = pre ++ pf :: post ->
  Forall (fun g => is_truthy (_validatePropFilter (Some obj) g) = true) pre ->
  _validatePropFilter (Some obj) pf = Throw e ->
  validate obj (Some filter) = Throw e.
Proof.
  intros Hname Hcomp Hfs Hpre Hpf. unfold validate.
  rewrite Hname, String.eqb_refl, Hcomp, Hfs. simpl.
  exact (filterSet_throw _ pre pf post _ e Hpre Hpf).
Qed.

Lemma nested_comp_throw (parent : Node) (outer : CompFilter)
    (first : Node) (rest : list Node)
    (pre : list CompFilter) (cf : CompFilter) (post : list CompFilter) (e : exc) :
  comp_is_not_defined outer = false ->
  select parent (comp_name outer) = first :: rest ->
  _validateTimeRangeOnComponent (Some first) (comp_time_range outer) = Ret true ->
  comp_filters outer = pre ++ cf :: post ->
  Forall (fun g => is_truthy (_validateCompFilter (Some first) g) = true) pre ->
  _validateCompFilter (Some first) cf = Throw e ->
  _validateCompFilter (Some parent) outer = Throw e.
Proof.
  intros Hnd Hsel Hrange Hfs Hpre Hcf.
  rewrite (compFilter_continue _ _ _ _ Hnd Hsel), Hrange, Hfs. simpl.
  rewrite (filterSet_throw _ pre cf post _ e Hpre Hcf). reflexivity.
Qed.

Lemma nested_prop_throw (parent : Node) (outer : CompFilter)
    (first : Node) (rest : list Node)
    (pre : list PropFilter) (pf : PropFilter) (post : list PropFilter) (e : exc) :
  comp_is_not_defined outer = false ->
  select parent (comp_name outer) = first :: rest ->
  _validateTimeRangeOnComponent (Some first) (comp_time_range outer) = Ret true ->
  _validateFilterSet (Some first) (comp_filters outer) _validateCompFilter
    = Ret true ->
  prop_filters outer = pre ++ pf :: post ->
  Forall (fun g => is_truthy (_validatePropFilter (Some first) g) = true) pre ->
  _validatePropFilter (Some first) pf = Throw e ->
  _validateCompFilter (Some parent) outer = Throw e.
Proof.
  intros Hnd Hsel Hrange Hcomp Hfs Hpre Hpf.
  rewrite (compFilter_continue _ _ _ _ Hnd Hsel), Hrange, Hcomp, Hfs. simpl.
  rewrite (filterSet_throw _ pre pf post _ e Hpre Hpf). reflexivity.
Qed.

(** A property filter with a time-range throws what the evaluator throws
    on the first matched property. *)
Lemma propFilter_timeRange_throw (parent : Node) (pf : PropFilter)
    (c : Node) (rest : list Node) (e : exc) :
  prop_is_not_defined pf = false ->
  select parent (prop_name pf) = c :: rest ->
  _validateTimeRange c (prop_time_range pf) = Throw e ->
  _validatePropFilter (Some parent) pf = Throw e.
Proof.
  intros Hnd Hsel Hc.
  rewrite (propFilter_continue _ _ _ _ Hnd Hsel), anyChild_cons.
  unfold _validatePropFilter_child. rewrite Hc. reflexivity.
Qed.

(** A component filter with a time-range throws what the evaluator
    throws on the first child of the first matched component that is not
    answered with false. *)
Lemma compFilter_timeRange_throw (parent : Node) (cf : CompFilter)
    (range : TimeRange) (first : Node) (rest : list Node)
    (pre : list Node) (c : Node) (post : list Node) (e : exc) :
  comp_is_not_defined cf = false ->
  comp_time_range cf = Some range ->
  select parent (comp_name cf) = first :: rest ->
  getChildren first = pre ++ c :: post ->
  Forall (fun p => is_falsy (_validateTimeRange p (Some range)) = true) pre ->
  _validateTimeRange c (Some range) = Throw e ->
  _validateCompFilter (Some parent) cf = Throw e.
Proof.
  intros Hnd Hrange Hsel Hcs Hpre Hc.
  rewrite (compFilter_continue _ _ _ _ Hnd Hsel), Hrange.
  rewrite (timeRangeOnComponent_throw _ _ _ _ _ _ Hcs Hpre Hc). reflexivity.
Qed.

(** C6.  On a node named VFREEBUSY and a present time-range, the
    evaluator returns no value: it throws.  What it throws is the value
    of [Exc.NotImplemented(...)] called without [new], which is
    [undefined] and not the NotImplemented error.  The thrown value is
    what the enclosing property filter or component filter throws, what
    every enclosing component filter throws in turn, and what [validate]
    throws to its caller: nowhere is it turned into a false verdict. *)
Theorem vfreebusy_throws_undefined (c : Node) (range : TimeRange) :
  name c = "VFREEBUSY" ->
  let e := Undefined in
  _validateTimeRange c (Some range)
    = Throw (Exc_NotImplemented
        "time-range filters are currently not supported on VFREEBUSY components") /\
  _validateTimeRange c (Some range) = Throw e /\
  (forall message,
     _validateTimeRange c (Some range) <> Throw (NotImplemented message)) /\
  (forall v, _validateTimeRange c (Some range) <> Ret v) /\
  (forall parent pf rest,
     prop_is_not_defined pf = false ->
     prop_time_range pf = Some range ->
     select parent (prop_name pf) = c :: rest ->
     _validatePropFilter (Some parent) pf = Throw e) /\
  (forall parent cf first rest before after,
     comp_is_not_defined cf = false ->
     comp_time_range cf = Some range ->
     select parent (comp_name cf) = first :: rest ->
     getChildren first = before ++ c :: after ->
     Forall (fun p => is_falsy (_validateTimeRange p (Some range)) = true)
       before ->
     _validateCompFilter (Some parent) cf = Throw e) /\
  (forall parent outer first rest pre cf post,
     comp_is_not_defined outer = false ->
     select parent (comp_name outer) = first :: rest ->
     _validateTimeRangeOnComponent (Some first) (comp_time_range outer)
       = Ret true ->
     comp_filters outer = pre ++ cf :: post ->
     Forall (fun g => is_truthy (_validateCompFilter (Some first) g) = true)
       pre ->
     _validateCompFilter (Some first) cf = Throw e ->
     _validateCompFilter (Some parent) outer = Throw e) /\
  (forall parent outer first rest pre pf post,
     comp_is_not_defined outer = false ->
     select parent (comp_name outer) = first :: rest ->
     _validateTimeRangeOnComponent (Some first) (comp_time_range outer)
       = Ret true ->
     _validateFilterSet (Some first) (comp_filters outer) _validateCompFilter
       = Ret true ->
     prop_filters outer = pre ++ pf :: post ->
     Forall (fun g => is_truthy (_validatePropFilter (Some first) g) = true)
       pre ->
     _validatePropFilter (Some first) pf = Throw e ->
     _validateCompFilter (Some parent) outer = Throw e) /\
  (forall obj filter pre cf post,
     name obj = root_name filter ->
     root_comp_filters filter = pre ++ cf :: post ->
     Forall (fun g => is_truthy (_validateCompFilter (Some obj) g) = true)
       pre ->
     _validateCompFilter (Some obj) cf = Throw e ->
     validate obj (Some filter) = Throw e) /\
  (forall obj filter pre pf post,
     name obj = root_name filter ->
     _validateFilterSet (Some obj) (root_comp_filters filter)
       _validateCompFilter = Ret true ->
     root_prop_filters filter = pre ++ pf :: post ->
     Forall (fun g => is_truthy (_validatePropFilter (Some obj) g) = true)
       pre ->
     _validatePropFilter (Some obj) pf = Throw e ->
     validate obj (Some filter) = Throw e).
Proof.
  intros Hname e.
  assert (Hc : _validateTimeRange c (Some range) = Throw e).
  { unfold _validateTimeRange. rewrite Hname. reflexivity. }
  split; [exact Hc|]. split; [exact Hc|].
  split; [intros message; rewrite Hc; discriminate|].
  split; [intros v; rewrite Hc; discriminate|].
  split.
  { intros parent pf rest Hnd Hrange Hsel.
    apply (propFilter_timeRange_throw _ _ _ _ _ Hnd Hsel).
    now rewrite Hrange. }
  split.
  { intros parent cf first rest before after Hnd Hrange Hsel Hcs Hbefore.
    exact (compFilter_timeRange_throw _ _ _ _ _ _ _ _ _
             Hnd Hrange Hsel Hcs Hbefore Hc). }
  split; [intros; eapply nested_comp_throw; eassumption|].
  split; [intros; eapply nested_prop_throw; eassumption|].
  split; [intros; eapply validate_comp_throw; eassumption|].
  intros; eapply validate_prop_throw; eassumption.
Qed.

(** ** The property filter *)

Lemma propChild_truthy_iff (c : Node) (pf : PropFilter) :
  is_truthy (_validatePropFilter_child c pf) = true <->
  is_truthy (_validateTimeRange c (prop_time_range pf)) = true /\
  is_truthy (_validateTextMatch (Some c) (prop_text_match pf)) = true /\
  _validateFilterSet (Some c) (param_filters pf) _validateParamFilter
    = Ret true.
Proof.
  unfold _validatePropFilter_child.
  generalize (_validateTimeRange c (prop_time_range pf)).
  generalize (_validateTextMatch (Some c) (prop_text_match pf)).
  generalize (_validateFilterSet (Some c) (param_filters pf)
                _validateParamFilter).
  intros [[|]|e1] [m|e2] [t|e3]; cbn [bind is_truthy];
    try destruct (truthy t); try destruct (truthy m); cbn [bind negb truthy];
    intuition discriminate.
Qed.

(** A property filter without a text-match throws as soon as a matched
    property passes the time-range. *)
Lemma propFilter_absent_text_match (parent : Node) (pf : PropFilter)
    (first : Node) (rest : list Node) :
  prop_is_not_defined pf = false ->
  prop_text_match pf = None ->
  select parent (prop_name pf) = first :: rest ->
  is_truthy (_validateTimeRange first (prop_time_range pf)) = true ->
  _validatePropFilter (Some parent) pf = Throw TypeError.
Proof.
  intros Hnd Htext Hsel Hrange.
  rewrite (propFilter_continue _ _ _ _ Hnd Hsel), anyChild_cons.
  unfold _validatePropFilter_child.
  destruct (_validateTimeRange first (prop_time_range pf)) as [t|e];
    [|discriminate].
  simpl in Hrange. simpl. rewrite Hrange, Htext. reflexivity.
Qed.

(** ** The component filter's time-range *)

(** The ways the evaluator answers a present time-range: with a Boolean
    of its own, with the delegate's answer, or with one of its two
    throws. *)
Lemma timeRange_cases (c : Node) (range : TimeRange) :
  (exists b, _validateTimeRange c (Some range) = Ret (Bool b)) \/
  (name_in (name c) componentNames = true /\
   exists s e,
     _validateTimeRange c (Some range)
       = (r <- isInTimeRange c s e ;; Ret (Bool r))) \/
  (name c = "VFREEBUSY" /\
   _validateTimeRange c (Some range)
     = Throw (Exc_NotImplemented (notSupportedMessage c))) \/
  (name_in (name c) supportedNames = false /\
   _validateTimeRange c (Some range)
     = Throw (Exc_BadRequest (badRequestMessage c))).
Proof.
  destruct (name_in (name c) supportedNames) eqn:Hname.
  - destruct (name_in (name c) componentNames) eqn:Hcomp.
    + right. left. split; [reflexivity|].
      unfold _validateTimeRange. unfold componentNames in Hcomp.
      rewrite Hcomp. eauto.
    + unfold name_in, supportedNames, componentNames, dateNames in Hname, Hcomp.
      simpl in Hname, Hcomp.
      unfold _validateTimeRange, name_in, notSupportedMessage. simpl existsb.
      rewrite Hcomp.
      repeat (apply orb_true_iff in Hname; destruct Hname as [Hname|Hname];
              [apply String.eqb_eq in Hname;
               first [ solve [rewrite Hname in Hcomp; discriminate Hcomp]
                     | rewrite Hname;
                       first [solve [left; simpl; eauto]
                             | solve [right; right; left; split; reflexivity]]]|]).
      discriminate.
  - right. right. right. split; [reflexivity|].
    now apply timeRange_default_case.
Qed.

(** C1 (as the code has it).  For a component filter whose component
    exists, that is not negated and carries a time-range, the time-range
    condition is the one evaluated on the first matched component: it is
    satisfied exactly when one of that component's own children passes
    the time-range and every child before it is answered with false.
    The other matched components are not looked at. *)
Theorem comp_filter_time_range_first_component
    (parent : Node) (cf : CompFilter) (range : TimeRange) :
  isset parent (comp_name cf) = true ->
  comp_is_not_defined cf = false ->
  comp_time_range cf = Some range ->
  exists first rest,
    select parent (comp_name cf) = first :: rest /\
    _validateCompFilter (Some parent) cf =
      (t <- _validateTimeRangeOnComponent (Some first) (Some range) ;;
       if negb t then Ret (Bool false) else
       r <- and_then
              (_validateFilterSet (Some first) (comp_filters cf)
                 _validateCompFilter)
              (_validateFilterSet (Some first) (prop_filters cf)
                 _validatePropFilter) ;;
       Ret (Bool r)) /\
    (_validateTimeRangeOnComponent (Some first) (Some range) = Ret true <->
     exists pre c post,
       getChildren first = pre ++ c :: post /\
       Forall (fun p => is_falsy (_validateTimeRange p (Some range)) = true)
         pre /\
       is_truthy (_validateTimeRange c (Some range)) = true).
Proof.
  intros Hset Hnd Hrange.
  destruct (isset_select _ _ Hset) as (first & rest & Hsel).
  exists first, rest. split; [exact Hsel|]. split.
  - rewrite (compFilter_continue _ _ _ _ Hnd Hsel), Hrange. reflexivity.
  - unfold _validateTimeRangeOnComponent.
    rewrite <- (anyChild_true_iff (getChildren first) (Some range)
                  _validateTimeRange).
    destruct (_anyChildMatches _ _ _) as [[|]|e]; simpl;
      split; congruence.
Qed.

(** C10.  The time-range of a component filter is tried on the children
    of the first matched component in order.  When a child with a name
    outside the supported set comes after children that were all answered
    with false, the evaluation stops there with a throw, whatever
    component the filter names, and every enclosing component filter and
    [validate] throw the same value.  That value is [undefined], the
    result of [Exc.BadRequest(...)] called without [new], and not the
    BadRequest error. *)
Theorem unsupported_child_throws_undefined
    (parent : Node) (cf : CompFilter) (range : TimeRange)
    (first : Node) (rest pre : list Node) (bad : Node) (post : list Node) :
  comp_is_not_defined cf = false ->
  comp_time_range cf = Some range ->
  select parent (comp_name cf) = first :: rest ->
  getChildren first = pre ++ bad :: post ->
  name_in (name bad) supportedNames = false ->
  Forall (fun p => is_falsy (_validateTimeRange p (Some range)) = true) pre ->
  let e := Undefined in
  _validateCompFilter (Some parent) cf
    = Throw (Exc_BadRequest (badRequestMessage bad)) /\
  _validateCompFilter (Some parent) cf = Throw e /\
  (forall message,
     _validateCompFilter (Some parent) cf <> Throw (BadRequest message)) /\
  (forall grandparent outer others before after,
     comp_is_not_defined outer = false ->
     select grandparent (comp_name outer) = parent :: others ->
     _validateTimeRangeOnComponent (Some parent) (comp_time_range outer)
       = Ret true ->
     comp_filters outer = before ++ cf :: after ->
     Forall (fun g => is_truthy (_validateCompFilter (Some parent) g) = true)
       before ->
     _validateCompFilter (Some grandparent) outer = Throw e) /\
  (forall filter before after,
     name parent = root_name filter ->
     root_comp_filters filter = before ++ cf :: after ->
     Forall (fun g => is_truthy (_validateCompFilter (Some parent) g) = true)
       before ->
     validate parent (Some filter) = Throw e).
Proof.
  intros Hnd Hrange Hsel Hcs Hbad Hpre e.
  assert (Hcf : _validateCompFilter (Some parent) cf = Throw e).
  { exact (compFilter_timeRange_throw _ _ _ _ _ _ _ _ _ Hnd Hrange Hsel Hcs
             Hpre (timeRange_default_case bad range Hbad)). }
  split; [exact Hcf|]. split; [exact Hcf|].
  split; [intros message; rewrite Hcf; discriminate|]. split.
  - intros; eapply nested_comp_throw; eassumption.
  - intros; eapply validate_comp_throw; eassumption.
Qed.

(** ** Further properties of the loops *)

Section LoopLaws.

Context {F : Type}.

(** X1.  A filter set split in two is evaluated as [first && second]:
    the second part is only run when the first part passes. *)
Theorem filterSet_app (o : option Node) (a b : list F)
    (v : option Node -> F -> outcome value) :
  _validateFilterSet o (a ++ b) v =
  and_then (_validateFilterSet o a v) (_validateFilterSet o b v).
Proof.
  induction a as [|f a IH].
  - simpl app. unfold and_then. simpl.
    now destruct (_validateFilterSet o b v).
  - simpl app. rewrite !filterSet_cons. unfold and_then in *.
    destruct (v o f) as [x|e]; simpl; [|reflexivity].
    destruct (truthy x); simpl; [exact IH|reflexivity].
Qed.

(** X2.  A filter set returns false exactly when some filter is answered
    with false after all the filters before it passed; the filters after
    it are not evaluated, so whatever they would throw stays unseen. *)
Theorem filterSet_false_iff (o : option Node) (fs : list F)
    (v : option Node -> F -> outcome value) :
  _validateFilterSet o fs v = Ret false <->
  exists pre f post,
    fs = pre ++ f :: post /\
    Forall (fun g => is_truthy (v o g) = true) pre /\
    is_falsy (v o f) = true.
Proof.
  induction fs as [|a fs IH].
  - split; [discriminate|].
    intros (pre & f & post & E & _). now destruct pre.
  - rewrite filterSet_cons. split.
    + destruct (v o a) as [x|e] eqn:Ea; simpl; [|discriminate].
      destruct (truthy x) eqn:Ex; simpl.
      * intros Hrest. apply IH in Hrest.
        destruct Hrest as (pre & f & post & -> & Hpre & Hf).
        exists (a :: pre), f, post. split; [reflexivity|]. split; [|exact Hf].
        constructor; [|exact Hpre]. now rewrite Ea.
      * intros _. exists [], a, fs. rewrite Ea. simpl. rewrite Ex. auto.
    + intros (pre & f & post & E & Hpre & Hf).
      destruct pre as [|a' pre]; simpl in E; injection E as -> ->.
      * destruct (v o f) as [x|e]; simpl in *; [|discriminate].
        now rewrite Hf.
      * inversion Hpre as [|? ? Ha Hpre']; subst.
        destruct (v o a') as [x|e]; simpl in *; [|discriminate].
        rewrite Ha. simpl. apply IH. exists pre, f, post. auto.
Qed.

(** X3.  The any-child loop over two runs of children is the loop over
    the first run, and over the second only when the first found no
    match; a match is never lost by appending children. *)
Theorem anyChild_app (a b : list Node) (f : F)
    (v : Node -> F -> outcome value) :
  _anyChildMatches (a ++ b) f v =
  (x <- _anyChildMatches a f v ;;
   if x then Ret true else _anyChildMatches b f v).
Proof.
  induction a as [|c a IH]; [reflexivity|].
  simpl app. rewrite !anyChild_cons.
  destruct (v c f) as [x|e]; simpl; [|reflexivity].
  destruct (truthy x); [reflexivity|exact IH].
Qed.

Lemma anyChild_false_iff (cs : list Node) (f : F)
    (v : Node -> F -> outcome value) :
  _anyChildMatches cs f v = Ret false <->
  Forall (fun c => is_falsy (v c f) = true) cs.
Proof.
  induction cs as [|c cs IH].
  - split; [constructor|reflexivity].
  - rewrite anyChild_cons. split.
    + destruct (v c f) as [x|e] eqn:Ec; simpl; [|discriminate].
      destruct (truthy x) eqn:Ex; [discriminate|].
      intros Hrest. constructor; [|now apply IH].
      rewrite Ec. simpl. now rewrite Ex.
    + intros Hall. inversion Hall as [|? ? Hc Hcs]; subst.
      destruct (v c f) as [x|e]; simpl in *; [|discriminate].
      apply negb_true_iff in Hc. rewrite Hc. now apply IH.
Qed.

Lemma allChild_cons (c : Node) (cs : list Node)
    (v : Node -> F -> outcome value) (f : F) :
  _allChildMatches (c :: cs) v f =
  (x <- v c f ;; if negb (truthy x) then Ret false else _allChildMatches cs v f).
Proof. reflexivity. Qed.

(** X4.  The all-children loop returns true exactly when the validator
    returns a true value on every child, vacuously so without children;
    it stops at the first child answered with false, and it throws what
    the validator throws on the first child that is not answered with
    true. *)
Theorem allChild_spec (cs : list Node) (v : Node -> F -> outcome value)
    (f : F) :
  (_allChildMatches cs v f = Ret true <->
   Forall (fun c => is_truthy (v c f) = true) cs) /\
  (forall pre c post,
     cs = pre ++ c :: post ->
     Forall (fun p => is_truthy (v p f) = true) pre ->
     (is_falsy (v c f) = true -> _allChildMatches cs v f = Ret false) /\
     (forall e, v c f = Throw e -> _allChildMatches cs v f = Throw e)).
Proof.
  split.
  - induction cs as [|c cs IH].
    + split; [constructor|reflexivity].
    + rewrite allChild_cons. split.
      * destruct (v c f) as [x|e] eqn:Ec; simpl; [|discriminate].
        destruct (truthy x) eqn:Ex; simpl; [|discriminate].
        intros Hrest. constructor; [now rewrite Ec|now apply IH].
      * intros Hall. inversion Hall as [|? ? Hc Hcs]; subst.
        destruct (v c f) as [x|e]; simpl in *; [|discriminate].
        rewrite Hc. simpl. now apply IH.
  - intros pre c post -> Hpre.
    induction Hpre as [|a pre Ha _ IH]; simpl app; rewrite allChild_cons.
    + split.
      * destruct (v c f) as [x|e]; simpl; [|discriminate].
        intros Hc. now rewrite Hc.
      * intros e ->. reflexivity.
    + destruct (v a f) as [x|e']; simpl in Ha |- *; [|discriminate].
      rewrite Ha. exact IH.
Qed.

End LoopLaws.

(** ** Further properties of the evaluators *)

(** X6.  A parameter filter that continues looks at the first parameter
    of its name only: it asks the text matcher about that parameter's
    value and returns the answer flipped by negate-condition, or throws
    what the matcher throws, whatever other parameters of the name
    follow. *)
Theorem paramFilter_first_only (property : Node) (pf : ParamFilter)
    (tm : TextMatch) (first : Node) (rest : list Node) :
  param_is_not_defined pf = false ->
  param_text_match pf = Some tm ->
  select property (param_name pf) = first :: rest ->
  _validateParamFilter (Some property) pf =
  (isMatching <-
     Util_textMatch (getValue first) (tm_value tm) (match_type tm) ;;
   Ret (bxor (negate_condition tm) isMatching)).
Proof.
  intros Hnd Htext Hsel. unfold _validateParamFilter.
  rewrite mkCommonValidator_continue.
  - cbn [filter_name ParamFilter_node]. rewrite Hsel, Htext. reflexivity.
  - exact (select_cons_isset _ _ _ _ Hsel).
  - exact Hnd.
Qed.

(** X7.  A component filter that continues depends on the first matched
    component alone: two parents whose first component of that name is
    the same get the same answer, whatever components of the name
    follow. *)
Theorem compFilter_first_only (parent parent' : Node) (cf : CompFilter)
    (first : Node) (rest rest' : list Node) :
  comp_is_not_defined cf = false ->
  select parent (comp_name cf) = first :: rest ->
  select parent' (comp_name cf) = first :: rest' ->
  _validateCompFilter (Some parent) cf = _validateCompFilter (Some parent') cf.
Proof.
  intros Hnd Hsel Hsel'.
  rewrite (compFilter_continue _ _ _ _ Hnd Hsel).
  rewrite (compFilter_continue _ _ _ _ Hnd Hsel'). reflexivity.
Qed.

(** X8.  A component filter whose component exists and that is not
    negated returns true exactly when, on the first matched component,
    the time-range condition holds, every nested component filter passes
    and every nested property filter passes. *)
Theorem compFilter_true_iff (parent : Node) (cf : CompFilter)
    (first : Node) (rest : list Node) :
  comp_is_not_defined cf = false ->
  select parent (comp_name cf) = first :: rest ->
  (_validateCompFilter (Some parent) cf = Ret (Bool true) <->
   _validateTimeRangeOnComponent (Some first) (comp_time_range cf) = Ret true /\
   Forall (fun g => is_truthy (_validateCompFilter (Some first) g) = true)
     (comp_filters cf) /\
   Forall (fun g => is_truthy (_validatePropFilter (Some first) g) = true)
     (prop_filters cf)).
Proof.
  intros Hnd Hsel. rewrite (compFilter_continue _ _ _ _ Hnd Hsel).
  rewrite <- !filterSet_true_iff. unfold and_then.
  destruct (_validateTimeRangeOnComponent _ _) as [[|]|e]; simpl;
    [|intuition discriminate|intuition discriminate].
  destruct (_validateFilterSet (Some first) (comp_filters cf) _)
    as [[|]|e]; simpl; [|intuition discriminate|intuition discriminate].
  destruct (_validateFilterSet (Some first) (prop_filters cf) _)
    as [[|]|e]; simpl; intuition discriminate.
Qed.

(** X9.  [validate] with a filter returns true exactly when the names
    agree, every root component filter passes and every root property
    filter passes. *)
Theorem validate_true_iff (obj : Node) (filter : Filter) :
  validate obj (Some filter) = Ret true <->
  name obj = root_name filter /\
  Forall (fun g => is_truthy (_validateCompFilter (Some obj) g) = true)
    (root_comp_filters filter) /\
  Forall (fun g => is_truthy (_validatePropFilter (Some obj) g) = true)
    (root_prop_filters filter).
Proof.
  unfold validate. rewrite <- !filterSet_true_iff, <- String.eqb_eq.
  destruct (String.eqb (name obj) (root_name filter));
    [|intuition discriminate].
  unfold and_then.
  destruct (_validateFilterSet (Some obj) (root_comp_filters filter) _)
    as [[|]|e]; simpl; [|intuition discriminate|intuition discriminate].
  intuition.
Qed.

(** X10.  On a date property a missing bound of the time-range is
    replaced by the first of February 1900, respectively 3000: the
    evaluator returns whether the date-time lies between the bounds so
    completed, both ends included. *)
Theorem date_property_default_bounds (c : Node) (range : TimeRange) :
  name_in (name c) dateNames = true ->
  let lo := match start range with Some s => s | None => defaultStart end in
  let hi := match end_ range with Some e => e | None => defaultEnd end in
  _validateTimeRange c (Some range) =
  Ret (Bool ((lo <=? getDateTime c) && (getDateTime c <=? hi))).
Proof.
  intros Hname lo hi. unfold name_in, dateNames in Hname. simpl in Hname.
  unfold _validateTimeRange. fold lo hi. rewrite Z.geb_leb.
  repeat (apply orb_true_iff in Hname;
          destruct Hname as [Hname|Hname];
          [apply String.eqb_eq in Hname; rewrite Hname; reflexivity|]).
  discriminate.
Qed.

(** X11.  The time-range condition of a component filter is false
    exactly when every child of the component is answered with false;
    in particular a component without children fails every time-range. *)
Theorem timeRangeOnComponent_false_iff (n : Node) (range : TimeRange) :
  _validateTimeRangeOnComponent (Some n) (Some range) = Ret false <->
  Forall (fun p => is_falsy (_validateTimeRange p (Some range)) = true)
    (getChildren n).
Proof.
  unfold _validateTimeRangeOnComponent.
  rewrite <- (anyChild_false_iff (getChildren n) (Some range)
                _validateTimeRange).
  destruct (_anyChildMatches _ _ _) as [[|]|e]; simpl; split; congruence.
Qed.

(** X12.  A property filter whose property exists and that is not
    negated returns false exactly when every matched property is
    answered with false by the conjunction of time-range, text-match and
    parameter filters. *)
Theorem propFilter_false_iff (parent : Node) (pf : PropFilter) :
  isset parent (prop_name pf) = true ->
  prop_is_not_defined pf = false ->
  (_validatePropFilter (Some parent) pf = Ret (Bool false) <->
   Forall (fun c => is_falsy (_validatePropFilter_child c pf) = true)
     (select parent (prop_name pf))).
Proof.
  intros Hset Hnd. unfold _validatePropFilter.
  rewrite mkCommonValidator_continue by assumption.
  cbn [filter_name PropFilter_node].
  rewrite <- (anyChild_false_iff _ pf _validatePropFilter_child).
  destruct (_anyChildMatches _ _ _) as [[|]|e]; simpl; split; congruence.
Qed.

(** X16.  [validate] with a filter returns false exactly when the names
    differ, or the root component filters return false, or they pass and
    the root property filters return false.  Once a component filter has
    failed the property filters are not evaluated at all. *)
Theorem validate_false_iff (obj : Node) (filter : Filter) :
  validate obj (Some filter) = Ret false <->
  name obj <> root_name filter \/
  name obj = root_name filter /\
  (_validateFilterSet (Some obj) (root_comp_filters filter) _validateCompFilter
     = Ret false \/
   _validateFilterSet (Some obj) (root_comp_filters filter) _validateCompFilter
     = Ret true /\
   _validateFilterSet (Some obj) (root_prop_filters filter) _validatePropFilter
     = Ret false).
Proof.
  unfold validate.
  destruct (String.eqb (name obj) (root_name filter)) eqn:En.
  - apply String.eqb_eq in En. unfold and_then.
    destruct (_validateFilterSet (Some obj) (root_comp_filters filter) _)
      as [[|]|e]; simpl.
    + split; [auto|]. intros [Hn|[_ [Hc|[_ Hp]]]];
        [contradiction|discriminate|exact Hp].
    + split; [auto|reflexivity].
    + split; [discriminate|].
      intros [Hn|[_ [Hc|[Hc _]]]]; [contradiction|discriminate|discriminate].
  - apply String.eqb_neq in En. split; [auto|reflexivity].
Qed.

(** ** Which exceptions a filter can raise *)

Lemma CompFilter_nested_ind (P : CompFilter -> Prop) :
  (forall cf, Forall P (comp_filters cf) -> P cf) ->
  forall cf, P cf.
Proof.
  intros step. fix IH 1. intros [n nd tr cfs pfs]. apply step. simpl.
  induction cfs as [|c cs IHcs]; constructor; [apply IH|exact IHcs].
Qed.

Lemma throws_only_bind {A B : Type} (P : exc -> Prop)
    (m : outcome A) (k : A -> outcome B) :
  throws_only P m ->
  (forall a, m = Ret a -> throws_only P (k a)) ->
  throws_only P (x <- m ;; k x).
Proof.
  intros Hm Hk. destruct m as [a|e]; simpl; [now apply Hk|exact Hm].
Qed.

Lemma throws_only_filterSet {F : Type} (P : exc -> Prop) (o : option Node)
    (fs : list F) (v : option Node -> F -> outcome value) :
  Forall (fun f => throws_only P (v o f)) fs ->
  throws_only P (_validateFilterSet o fs v).
Proof.
  induction 1 as [|f fs Hf _ IH]; [exact I|].
  rewrite filterSet_cons. apply throws_only_bind; [exact Hf|].
  intros x _. destruct (negb (truthy x)); [exact I|exact IH].
Qed.

Lemma throws_only_anyChild {F : Type} (P : exc -> Prop) (cs : list Node)
    (f : F) (v : Node -> F -> outcome value) :
  Forall (fun c => throws_only P (v c f)) cs ->
  throws_only P (_anyChildMatches cs f v).
Proof.
  induction 1 as [|c cs Hc _ IH]; [exact I|].
  rewrite anyChild_cons. apply throws_only_bind; [exact Hc|].
  intros x _. destruct (truthy x); [exact I|exact IH].
Qed.

Lemma throws_only_and_then (P : exc -> Prop) (a b : outcome bool) :
  throws_only P a -> throws_only P b -> throws_only P (and_then a b).
Proof.
  intros Ha Hb. apply throws_only_bind; [exact Ha|].
  intros [|] _; [exact Hb|exact I].
Qed.

(** The validator built by [mkCommonValidator], by the three ways the
    presence check can go. *)
Lemma throws_only_common {F : Type} `{FilterNode F} (P : exc -> Prop)
    (continuator : list Node -> F -> outcome value)
    (parent : Node) (filter : F) :
  (forall first rest,
     is_not_defined filter = false ->
     select parent (filter_name filter) = first :: rest ->
     throws_only P (continuator (first :: rest) filter)) ->
  throws_only P (mkCommonValidator continuator (Some parent) filter).
Proof.
  intros Hk. destruct (is_not_defined filter) eqn:Hnd.
  - rewrite mkCommonValidator_negated by assumption. exact I.
  - destruct (isset parent (filter_name filter)) eqn:Hset.
    + rewrite mkCommonValidator_continue by assumption.
      destruct (isset_select _ _ Hset) as (first & rest & Hsel).
      rewrite Hsel. now apply Hk.
    + rewrite mkCommonValidator_absent by assumption. exact I.
Qed.

Section Exceptions.

Variable P : exc -> Prop.
Variable qr : option TimeRange -> bool.
Variable qp : PropFilter -> bool.

Hypothesis range_ok :
  forall r c, qr r = true -> throws_only P (_validateTimeRange c r).
Hypothesis prop_ok :
  forall pf parent, qp pf = true ->
    throws_only P (_validatePropFilter (Some parent) pf).

Lemma throws_only_timeRangeOnComponent (n : Node) (r : option TimeRange) :
  qr r = true -> throws_only P (_validateTimeRangeOnComponent (Some n) r).
Proof.
  intros Hr. unfold _validateTimeRangeOnComponent.
  destruct r as [range|]; [|exact I].
  apply throws_only_bind.
  - apply throws_only_anyChild. apply Forall_forall.
    intros c _. now apply range_ok.
  - intros m _. now destruct (negb m).
Qed.

Lemma throws_only_compFilter (cf : CompFilter) :
  compFilter_all qr qp cf = true ->
  forall parent, throws_only P (_validateCompFilter (Some parent) cf).
Proof.
  induction cf as [cf IH] using CompFilter_nested_ind.
  destruct cf as [n nd tr cfs pfs]. simpl in IH. simpl compFilter_all.
  intros Hall parent.
  apply andb_true_iff in Hall. destruct Hall as [Hall Hcfs].
  apply andb_true_iff in Hall. destruct Hall as [Hr Hpfs].
  rewrite compFilter_eq. apply throws_only_common.
  intros first rest _ _. cbn [nth_error comp_time_range comp_filters prop_filters].
  apply throws_only_bind;
    [now apply throws_only_timeRangeOnComponent|].
  intros t _. destruct (negb t); [exact I|].
  apply throws_only_bind; [|intros; exact I].
  apply throws_only_and_then; apply throws_only_filterSet; apply Forall_forall.
  - intros g Hg. rewrite Forall_forall in IH. apply (IH g Hg).
    rewrite forallb_forall in Hcfs. now apply Hcfs.
  - intros g Hg. apply prop_ok. rewrite forallb_forall in Hpfs. now apply Hpfs.
Qed.

Lemma throws_only_validate (obj : Node) (filter : option Filter) :
  match filter with Some f => filter_all qr qp f = true | None => True end ->
  throws_only P (validate obj filter).
Proof.
  destruct filter as [f|]; [|intros; exact I].
  unfold filter_all, validate. intros Hall.
  apply andb_true_iff in Hall. destruct Hall as [Hcfs Hpfs].
  destruct (String.eqb (name obj) (root_name f)); [|exact I].
  apply throws_only_and_then; apply throws_only_filterSet; apply Forall_forall.
  - intros g Hg. apply throws_only_compFilter.
    rewrite forallb_forall in Hcfs. now apply Hcfs.
  - intros g Hg. apply prop_ok. rewrite forallb_forall in Hpfs. now apply Hpfs.
Qed.

End Exceptions.

Lemma throws_only_impl {A : Type} (P Q : exc -> Prop) (o : outcome A) :
  (forall e, P e -> Q e) -> throws_only P o -> throws_only Q o.
Proof. intros HPQ. destruct o; simpl; auto. Qed.

(** The evaluator's own throws are [undefined]; anything else it throws
    comes from the range delegate. *)
Lemma timeRange_throws (r : option TimeRange) (c : Node) :
  throws_only (fun e => e = Undefined \/ range_delegate_throws e)
    (_validateTimeRange c r).
Proof.
  destruct r as [range|]; [|exact I].
  destruct (timeRange_cases c range)
    as [[b ->]|[[_ (s & e & ->)]|[[_ ->]|[_ ->]]]]; simpl; auto.
  destruct (isInTimeRange c s e) as [x|x] eqn:E; simpl; [exact I|].
  right. now exists c, s, e.
Qed.

Lemma textMatch_present_throws (c : Node) (tm : TextMatch) :
  throws_only matcher_throws (_validateTextMatch (Some c) (Some tm)).
Proof.
  simpl.
  destruct (Util_textMatch (getValue c) (tm_value tm) (match_type tm))
    as [m|e] eqn:E; simpl; [exact I|].
  now exists (getValue c), (tm_value tm), (match_type tm).
Qed.

Lemma textMatch_throws (o : option Node) (tm : option TextMatch) :
  throws_only (fun e => e = TypeError \/ matcher_throws e)
    (_validateTextMatch o tm).
Proof.
  destruct o as [c|], tm as [tm|]; try (simpl; auto; fail).
  eapply throws_only_impl; [|apply textMatch_present_throws]. auto.
Qed.

Lemma paramFilter_safe_throws (c : Node) (pf : ParamFilter) :
  paramFilter_safe pf = true ->
  throws_only matcher_throws (_validateParamFilter (Some c) pf).
Proof.
  unfold paramFilter_safe. intros Hsafe.
  unfold _validateParamFilter. apply throws_only_common.
  cbn [is_not_defined ParamFilter_node]. intros first rest Hnd _.
  rewrite Hnd in Hsafe. simpl in Hsafe.
  destruct (param_text_match pf) as [tm|]; [|discriminate].
  apply textMatch_present_throws.
Qed.

Lemma paramFilter_throws (c : Node) (pf : ParamFilter) :
  throws_only (fun e => e = TypeError \/ matcher_throws e)
    (_validateParamFilter (Some c) pf).
Proof.
  unfold _validateParamFilter. apply throws_only_common. intros p ps _ _.
  apply textMatch_throws.
Qed.

(** A guarded property filter throws what its time-range evaluation or
    the text matcher throws. *)
Lemma propFilter_guarded_throws (Q : exc -> Prop) (pf : PropFilter)
    (parent : Node) :
  (forall c, throws_only Q (_validateTimeRange c (prop_time_range pf))) ->
  (forall e, matcher_throws e -> Q e) ->
  propFilter_guarded pf = true ->
  throws_only Q (_validatePropFilter (Some parent) pf).
Proof.
  unfold propFilter_guarded. intros Hrange Hmatcher Hg.
  apply andb_true_iff in Hg. destruct Hg as [Htext Hparams].
  unfold _validatePropFilter. apply throws_only_common.
  cbn [is_not_defined PropFilter_node]. intros first rest Hnd _.
  rewrite Hnd in Htext. simpl in Htext.
  destruct (prop_text_match pf) as [tm|] eqn:Etext; [|discriminate].
  apply throws_only_bind; [|intros; exact I].
  apply throws_only_anyChild. apply Forall_forall. intros c _.
  unfold _validatePropFilter_child.
  apply throws_only_bind; [apply Hrange|].
  intros t _. destruct (negb (truthy t)); [exact I|].
  rewrite Etext. apply throws_only_bind.
  { eapply throws_only_impl; [exact Hmatcher|].
    apply textMatch_present_throws. }
  intros m _. destruct (negb (truthy m)); [exact I|].
  apply throws_only_bind; [|intros; exact I].
  apply throws_only_filterSet. apply Forall_forall. intros g Hg.
  eapply throws_only_impl; [exact Hmatcher|].
  apply paramFilter_safe_throws.
  rewrite forallb_forall in Hparams. now apply Hparams.
Qed.

Lemma propFilter_without_range_throws (pf : PropFilter) (parent : Node) :
  no_range (prop_time_range pf) = true ->
  throws_only (fun e => e = TypeError \/ matcher_throws e)
    (_validatePropFilter (Some parent) pf).
Proof.
  intros Hr. destruct (prop_time_range pf) as [|] eqn:Er; [discriminate|].
  unfold _validatePropFilter. apply throws_only_common. intros first rest _ _.
  apply throws_only_bind; [|intros; exact I].
  apply throws_only_anyChild. apply Forall_forall. intros c _.
  unfold _validatePropFilter_child. rewrite Er. cbn [_validateTimeRange bind].
  cbn [truthy negb].
  apply throws_only_bind; [apply textMatch_throws|].
  intros m _. destruct (negb (truthy m)); [exact I|].
  apply throws_only_bind; [|intros; exact I].
  apply throws_only_filterSet. apply Forall_forall. intros g _.
  apply paramFilter_throws.
Qed.

(** X13.  When every property filter and every parameter filter of the
    tree is negated or carries its text-match, the validator raises no
    TypeError of its own: a first matched child is always there and no
    absent text-match is dereferenced, so a TypeError out of [validate]
    is one that the text matcher or the range delegate threw. *)
Theorem validate_no_type_error (obj : Node) (filter : Filter) :
  text_guarded filter = true ->
  validate obj (Some filter) = Throw TypeError ->
  matcher_throws TypeError \/ range_delegate_throws TypeError.
Proof.
  intros Hg E.
  assert (Ht : throws_only
                 (fun e => e = TypeError ->
                           matcher_throws e \/ range_delegate_throws e)
                 (validate obj (Some filter))).
  { apply (throws_only_validate _ (fun _ => true) propFilter_guarded).
    - intros r c _. eapply throws_only_impl; [|apply timeRange_throws].
      intros e [->|He]; [discriminate|auto].
    - intros pf parent. apply propFilter_guarded_throws; [|auto].
      intros c. eapply throws_only_impl; [|apply timeRange_throws].
      intros e [->|He]; [discriminate|auto].
    - exact Hg. }
  rewrite E in Ht. now apply Ht.
Qed.

(** X14.  When no filter of the tree carries a time-range, the throw
    sites of the time-range evaluator and the range delegate are never
    reached, whatever the names of the components and properties of the
    calendar object: whatever [validate] throws is a TypeError or a value
    thrown by the text matcher. *)
Theorem validate_without_time_range (obj : Node) (filter : Filter) :
  without_time_range filter = true ->
  forall e,
    validate obj (Some filter) = Throw e ->
    e = TypeError \/ matcher_throws e.
Proof.
  intros Hw e E.
  assert (Ht : throws_only (fun e => e = TypeError \/ matcher_throws e)
                 (validate obj (Some filter))).
  { apply (throws_only_validate _ no_range
             (fun pf => no_range (prop_time_range pf))).
    - intros r c Hr. destruct r; [discriminate|exact I].
    - intros pf parent. apply propFilter_without_range_throws.
    - exact Hw. }
  rewrite E in Ht. exact Ht.
Qed.

(** X15.  When no filter carries a time-range and every property and
    parameter filter is negated or carries its text-match, [validate]
    returns a Boolean on every calendar object unless the text matcher
    throws: whatever [validate] throws, the text matcher threw. *)
Theorem validate_returns (obj : Node) (filter : Filter) :
  plain_filter filter = true ->
  (exists b, validate obj (Some filter) = Ret b) \/
  (exists e, validate obj (Some filter) = Throw e /\ matcher_throws e).
Proof.
  intros Hp.
  assert (Ht : throws_only matcher_throws (validate obj (Some filter))).
  { apply (throws_only_validate _ no_range
             (fun pf => no_range (prop_time_range pf) && propFilter_guarded pf)).
    - intros r c Hr. destruct r; [discriminate|exact I].
    - intros pf parent Hpf. apply andb_true_iff in Hpf.
      destruct Hpf as [Hr Hg].
      apply propFilter_guarded_throws; [|auto|exact Hg].
      intros c. destruct (prop_time_range pf); [discriminate|exact I].
    - exact Hp. }
  destruct (validate obj (Some filter)) as [b|e]; [eauto|].
  right. exists e. auto.
Qed.

End Properties.

(** ** Runs on the sample calendar *)

Section Runs.

#[local] Existing Instance Sample.collaborators.

Example validate_without_filter :
  validate (Sample.comp "VCALENDAR" []) None = Ret true.
Proof. reflexivity. Qed.

Example validate_other_name :
  validate (Sample.comp "VEVENT" []) (Some (Sample.eventWith [])) = Ret false.
Proof. reflexivity. Qed.

Example validate_nested_meeting :
  validate (Sample.comp "VCALENDAR" [Sample.meeting])
    (Some (Sample.eventWith [Sample.summaryContains "Meeting"])) = Ret true.
Proof. vm_compute. reflexivity. Qed.

Example validate_nested_lunch :
  validate (Sample.comp "VCALENDAR" [Sample.lunch])
    (Some (Sample.eventWith [Sample.summaryContains "Meeting"])) = Ret false.
Proof. vm_compute. reflexivity. Qed.

(** A free-busy component reached by a root property filter with a
    time-range. *)
Lemma vfreebusy_throws_undefined_witness :
  name Sample.busy = "VFREEBUSY" /\
  validate Sample.busyCalendar (Some Sample.busyFilter) = Throw Undefined.
Proof.
  split; [reflexivity|].
  destruct (vfreebusy_throws_undefined Sample.busy Sample.year2024 eq_refl)
    as (_ & _ & _ & _ & Hprop & _ & _ & _ & _ & Hroot).
  apply (Hroot Sample.busyCalendar Sample.busyFilter [] Sample.busyProp []).
  - reflexivity.
  - reflexivity.
  - reflexivity.
  - constructor.
  - apply (Hprop Sample.busyCalendar Sample.busyProp []); reflexivity.
Defined.

(** The boundary of the year: a DTSTART on the end instant itself. *)
Lemma date_property_range_inclusive_witness :
  name_in (name (Sample.date "DTSTART" Sample.dec31_2024)) dateNames = true /\
  _validateTimeRange (Sample.date "DTSTART" Sample.dec31_2024)
    (Some Sample.year2024) = Ret (Bool true).
Proof.
  split; [reflexivity|].
  apply (date_property_range_inclusive
           (Sample.date "DTSTART" Sample.dec31_2024)
           Sample.jan1_2024 Sample.dec31_2024 eq_refl).
  vm_compute. split; discriminate.
Defined.

Example dtstart_in_june :
  _validateTimeRange (Sample.date "DTSTART" Sample.jun15_2024)
    (Some Sample.year2024) = Ret (Bool true).
Proof. reflexivity. Qed.

Example dtstart_next_year :
  _validateTimeRange (Sample.date "DTSTART" Sample.jan1_2025)
    (Some Sample.year2024) = Ret (Bool false).
Proof. reflexivity. Qed.

Lemma valarm_time_range_false_witness :
  name (Sample.comp "VALARM" []) = "VALARM" /\
  _validateTimeRange (Sample.comp "VALARM" []) (Some Sample.year2024)
  = Ret (Bool false).
Proof.
  split; [reflexivity|].
  apply (valarm_time_range_false (Sample.comp "VALARM" []) Sample.year2024).
  reflexivity.
Defined.

Lemma unsupported_name_throws_undefined_witness :
  name_in (name (Sample.comp "VTIMEZONE" [])) supportedNames = false /\
  _validateTimeRange (Sample.comp "VTIMEZONE" []) (Some Sample.year2024)
    = Throw Undefined /\
  forall message,
    _validateTimeRange (Sample.comp "VTIMEZONE" []) (Some Sample.year2024)
    <> Throw (BadRequest message).
Proof.
  split; [reflexivity|].
  apply (unsupported_name_throws_undefined (Sample.comp "VTIMEZONE" [])
           Sample.year2024).
  reflexivity.
Defined.

(** The event filter on a calendar with two events continues with both,
    the first at index 0. *)
Lemma continue_has_first_child_witness :
  _checkChildPresence (Some Sample.twoEvents) Sample.anyEvent
    = Ret Sample.eventsPresent /\
  stop Sample.eventsPresent = false /\
  nth_error (elements (presence_children Sample.eventsPresent)) 0
    = Some Sample.meeting.
Proof.
  assert (E : _checkChildPresence (Some Sample.twoEvents) Sample.anyEvent
              = Ret Sample.eventsPresent) by reflexivity.
  split; [exact E|]. split; [reflexivity|].
  destruct (continue_has_first_child Sample.twoEvents Sample.anyEvent
              Sample.eventsPresent E eq_refl)
    as (first & rest & Hp & _ & Hfirst).
  injection Hp as <- _. exact Hfirst.
Defined.

(** C4 fails on the code: the start of the event lies in 2024, the filter
    has no text-match to fail and its parameter filter passes, so one
    matched property satisfies all three conditions; the property filter
    throws instead of returning true. *)
Theorem prop_filter_satisfied_child_throws :
  isset Sample.zonedEvent (prop_name Sample.startsIn2024) = true /\
  prop_is_not_defined Sample.startsIn2024 = false /\
  In Sample.zoned (select Sample.zonedEvent (prop_name Sample.startsIn2024)) /\
  is_truthy (_validateTimeRange Sample.zoned
               (prop_time_range Sample.startsIn2024)) = true /\
  prop_text_match Sample.startsIn2024 = None /\
  Forall (fun g => is_truthy (_validateParamFilter (Some Sample.zoned) g) = true)
    (param_filters Sample.startsIn2024) /\
  _validatePropFilter (Some Sample.zonedEvent) Sample.startsIn2024
    = Throw TypeError /\
  _validatePropFilter (Some Sample.zonedEvent) Sample.startsIn2024
    <> Ret (Bool true).
Proof.
  split; [reflexivity|]. split; [reflexivity|].
  split; [left; reflexivity|]. split; [reflexivity|]. split; [reflexivity|].
  split; [repeat constructor|]. split; [reflexivity|].
  discriminate.
Qed.

(** C1 as stated fails: the second event lies in 2024, yet the condition
    is decided by the children of the first event alone. *)
Lemma comp_filter_time_range_counterexample :
  isset Sample.twoDates (comp_name Sample.eventIn2024) = true /\
  comp_is_not_defined Sample.eventIn2024 = false /\
  comp_time_range Sample.eventIn2024 = Some Sample.year2024 /\
  In Sample.planned (select Sample.twoDates (comp_name Sample.eventIn2024)) /\
  is_truthy (_validateTimeRange Sample.planned (Some Sample.year2024)) = true /\
  _validateTimeRangeOnComponent
    (nth_error (select Sample.twoDates (comp_name Sample.eventIn2024)) 0)
    (Some Sample.year2024) = Ret false /\
  _validateCompFilter (Some Sample.twoDates) Sample.eventIn2024
    = Ret (Bool false) /\
  validate Sample.twoDates (Some Sample.eventsIn2024) = Ret false.
Proof.
  repeat split; try reflexivity. right. left. reflexivity.
Qed.

Lemma comp_filter_time_range_first_component_witness :
  isset (Sample.comp "VCALENDAR" [Sample.planned; Sample.early])
    (comp_name Sample.eventIn2024) = true /\
  comp_is_not_defined Sample.eventIn2024 = false /\
  comp_time_range Sample.eventIn2024 = Some Sample.year2024 /\
  _validateTimeRangeOnComponent (Some Sample.planned) (Some Sample.year2024)
    = Ret true.
Proof.
  split; [reflexivity|]. split; [reflexivity|]. split; [reflexivity|].
  destruct (comp_filter_time_range_first_component
              (Sample.comp "VCALENDAR" [Sample.planned; Sample.early])
              Sample.eventIn2024 Sample.year2024 eq_refl eq_refl eq_refl)
    as (first & rest & Hsel & _ & Hiff).
  injection Hsel as <- _. apply Hiff.
  exists [], (Sample.date "DTSTART" Sample.jun15_2024), [].
  split; [reflexivity|]. split; [constructor|reflexivity].
Defined.

(** The summary of an event stops a time-range query on the event, even
    with a DTEND in range after it. *)
Lemma unsupported_child_throws_undefined_witness :
  comp_is_not_defined Sample.eventIn2024 = false /\
  comp_time_range Sample.eventIn2024 = Some Sample.year2024 /\
  select (Sample.comp "VCALENDAR" [Sample.summarised])
    (comp_name Sample.eventIn2024) = [Sample.summarised] /\
  getChildren Sample.summarised =
    [Sample.date "DTSTART" Sample.jun15_2023] ++ Sample.teamMeeting ::
    [Sample.date "DTEND" Sample.jun15_2024] /\
  name_in (name Sample.teamMeeting) supportedNames = false /\
  Forall (fun p => is_falsy (_validateTimeRange p (Some Sample.year2024))
                   = true)
    [Sample.date "DTSTART" Sample.jun15_2023] /\
  validate (Sample.comp "VCALENDAR" [Sample.summarised])
    (Some Sample.eventsIn2024) = Throw Undefined.
Proof.
  split; [reflexivity|]. split; [reflexivity|]. split; [reflexivity|].
  split; [reflexivity|]. split; [reflexivity|].
  assert (Hpre : Forall
            (fun p => is_falsy (_validateTimeRange p (Some Sample.year2024))
                      = true)
            [Sample.date "DTSTART" Sample.jun15_2023])
    by (repeat constructor).
  split; [exact Hpre|].
  destruct (unsupported_child_throws_undefined
              (Sample.comp "VCALENDAR" [Sample.summarised])
              Sample.eventIn2024 Sample.year2024 Sample.summarised []
              [Sample.date "DTSTART" Sample.jun15_2023] Sample.teamMeeting
              [Sample.date "DTEND" Sample.jun15_2024]
              eq_refl eq_refl eq_refl eq_refl eq_refl Hpre)
    as (_ & _ & _ & _ & Hroot).
  apply (Hroot Sample.eventsIn2024 [] []); [reflexivity|reflexivity|constructor].
Defined.

Example dtstart_first_in_range :
  validate (Sample.comp "VCALENDAR" [Sample.planned])
    (Some Sample.eventsIn2024) = Ret true.
Proof. reflexivity. Qed.

(** C2 fails on the code: a property filter that only names an existing
    property, with no text-match, dereferences the absent text-match. *)
Theorem prop_filter_without_text_match_throws :
  isset Sample.meeting (prop_name Sample.hasSummary) = true /\
  prop_is_not_defined Sample.hasSummary = false /\
  prop_text_match Sample.hasSummary = None /\
  is_truthy (_validateTimeRange Sample.teamMeeting
               (prop_time_range Sample.hasSummary)) = true /\
  _validateTextMatch (Some Sample.teamMeeting)
    (prop_text_match Sample.hasSummary) = Throw TypeError /\
  _validatePropFilter (Some Sample.meeting) Sample.hasSummary
    = Throw TypeError /\
  validate (Sample.comp "VCALENDAR" [Sample.meeting])
    (Some (Sample.eventWith [Sample.hasSummary])) = Throw TypeError.
Proof. repeat split; reflexivity. Qed.

(** The loop stops at the start before 2024 and never reaches the
    summary, on which the evaluator would throw. *)
Lemma allChild_spec_witness :
  _allChildMatches
    [Sample.date "DTSTART" Sample.jun15_2024;
     Sample.date "DTSTART" Sample.jun15_2023; Sample.teamMeeting]
    _validateTimeRange (Some Sample.year2024) = Ret false.
Proof.
  destruct (allChild_spec
              [Sample.date "DTSTART" Sample.jun15_2024;
               Sample.date "DTSTART" Sample.jun15_2023; Sample.teamMeeting]
              _validateTimeRange (Some Sample.year2024)) as [_ Hstop].
  apply (Hstop [Sample.date "DTSTART" Sample.jun15_2024]
               (Sample.date "DTSTART" Sample.jun15_2023)
               [Sample.teamMeeting] eq_refl).
  - repeat constructor.
  - reflexivity.
Defined.

(** The second TZID is UTC, the first is not: the filter fails. *)
Lemma paramFilter_first_only_witness :
  param_is_not_defined Sample.tzidIsUTC = false /\
  select Sample.zoned (param_name Sample.tzidIsUTC)
    = [Sample.prop "TZID" "Europe/Paris" []; Sample.prop "TZID" "UTC" []] /\
  _validateParamFilter (Some Sample.zoned) Sample.tzidIsUTC = Ret (Num 0).
Proof.
  split; [reflexivity|]. split; [reflexivity|].
  rewrite (paramFilter_first_only Sample.zoned Sample.tzidIsUTC
             {| tm_value := "UTC"; match_type := "equals";
                negate_condition := false |}
             (Sample.prop "TZID" "Europe/Paris" [])
             [Sample.prop "TZID" "UTC" []] eq_refl eq_refl eq_refl).
  reflexivity.
Defined.

Lemma compFilter_first_only_witness :
  comp_is_not_defined Sample.eventIn2024 = false /\
  _validateCompFilter (Some Sample.twoDates) Sample.eventIn2024 =
  _validateCompFilter (Some (Sample.comp "VCALENDAR" [Sample.early]))
    Sample.eventIn2024.
Proof.
  split; [reflexivity|].
  apply (compFilter_first_only Sample.twoDates
           (Sample.comp "VCALENDAR" [Sample.early]) Sample.eventIn2024
           Sample.early [Sample.planned] [] eq_refl eq_refl eq_refl).
Defined.

Lemma compFilter_true_iff_witness :
  comp_is_not_defined (Sample.eventAbout "Meeting") = false /\
  select Sample.twoEvents (comp_name (Sample.eventAbout "Meeting"))
    = [Sample.meeting; Sample.lunch] /\
  _validateCompFilter (Some Sample.twoEvents) (Sample.eventAbout "Meeting")
    = Ret (Bool true).
Proof.
  split; [reflexivity|]. split; [reflexivity|].
  apply (compFilter_true_iff Sample.twoEvents (Sample.eventAbout "Meeting")
           Sample.meeting [Sample.lunch] eq_refl eq_refl).
  split; [reflexivity|]. split; repeat constructor.
Defined.

(** An open-ended range still ends on the first of February 3000. *)
Lemma date_property_default_bounds_witness :
  name_in (name (Sample.date "DUE" (defaultEnd + 1))) dateNames = true /\
  _validateTimeRange (Sample.date "DUE" (defaultEnd + 1))
    (Some Sample.from2024) = Ret (Bool false).
Proof.
  split; [reflexivity|].
  rewrite (date_property_default_bounds (Sample.date "DUE" (defaultEnd + 1))
             Sample.from2024 eq_refl).
  reflexivity.
Defined.

Lemma propFilter_false_iff_witness :
  isset Sample.lunch (prop_name (Sample.summaryContains "Meeting")) = true /\
  prop_is_not_defined (Sample.summaryContains "Meeting") = false /\
  _validatePropFilter (Some Sample.lunch) (Sample.summaryContains "Meeting")
    = Ret (Bool false).
Proof.
  split; [reflexivity|]. split; [reflexivity|].
  apply (propFilter_false_iff Sample.lunch (Sample.summaryContains "Meeting")
           eq_refl eq_refl).
  repeat constructor.
Defined.

(** The event without a DTSTART makes the range delegate throw. *)
Lemma validate_no_type_error_witness :
  text_guarded Sample.eventAsProperty = true /\
  validate Sample.undated (Some Sample.eventAsProperty) = Throw TypeError /\
  (matcher_throws TypeError \/ range_delegate_throws TypeError).
Proof.
  split; [reflexivity|]. split; [reflexivity|].
  exact (validate_no_type_error Sample.undated Sample.eventAsProperty
           eq_refl eq_refl).
Defined.

(** Without a time-range the filter on the summary still throws for its
    absent text-match, and that is a TypeError. *)
Lemma validate_without_time_range_witness :
  without_time_range (Sample.eventWith [Sample.hasSummary]) = true /\
  validate (Sample.comp "VCALENDAR" [Sample.meeting])
    (Some (Sample.eventWith [Sample.hasSummary])) = Throw TypeError /\
  (TypeError = TypeError \/ matcher_throws TypeError).
Proof.
  split; [reflexivity|]. split; [reflexivity|].
  exact (validate_without_time_range (Sample.comp "VCALENDAR" [Sample.meeting])
           (Sample.eventWith [Sample.hasSummary]) eq_refl TypeError eq_refl).
Defined.

Lemma validate_returns_witness :
  plain_filter (Sample.eventWith [Sample.summaryContains "Meeting"]) = true /\
  ((exists b,
      validate Sample.twoEvents
        (Some (Sample.eventWith [Sample.summaryContains "Meeting"])) = Ret b) \/
   (exists e,
      validate Sample.twoEvents
        (Some (Sample.eventWith [Sample.summaryContains "Meeting"])) = Throw e /\
      matcher_throws e)).
Proof.
  split; [reflexivity|].
  exact (validate_returns Sample.twoEvents
           (Sample.eventWith [Sample.summaryContains "Meeting"]) eq_refl).
Defined.

End Runs.
